(** * postgrest-py: request builders and clients

    A shallow embedding of [postgrest_py/_sync/request_builder.py],
    [postgrest_py/_sync/client.py] and [postgrest_py/_async/client.py].

    Python objects that the code shares and mutates (the httpx sessions)
    live in a store indexed by references; builders and clients hold the
    reference, exactly as the Python objects hold a pointer.  Methods are
    computations in a state-and-exception monad over that store and over
    the log of requests handed to the transport. *)

From Stdlib Require Import ZArith Ascii String List.
From stdpp Require Import base option gmap strings list fin_maps.

Set Warnings "-register-all".
Local Open Scope Z_scope.
Local Open Scope string_scope.

(** ** Data *)

(** A JSON value: the [json=] request bodies and the decoded response
    bodies.  Numbers are integers; nothing below looks inside a number. *)
Inductive Json : Type :=
| JNull
| JBool (b : bool)
| JNumber (n : Z)
| JString (s : string)
| JArray (items : list Json)
| JObject (members : list (string * Json)).

(** [d.get(key)] on a decoded body: [None] when the key is missing or the
    value is not an object. *)
Fixpoint assoc_get (key : string) (members : list (string * Json)) : option Json :=
  match members with
  | [] => None
  | (k, v) :: rest => if String.eqb k key then Some v else assoc_get key rest
  end.

Definition dict_get (key : string) (j : Json) : option Json :=
  match j with
  | JObject members => assoc_get key members
  | _ => None
  end.

(** The two httpx client classes of [postgrest_py.utils]. *)
Inductive ClientKind : Type := SyncClient | AsyncClient.

(** The attributes of an httpx client that this code reads or writes. *)
Record Session : Type := mkSession {
  kind : ClientKind;
  base_url : string;
  headers : gmap string string;
  params : list (string * string);
  timeout : Z;
  auth : option (string * string)
}.

#[global] Instance Session_inhabited : Inhabited Session :=
  populate (mkSession SyncClient "" ∅ [] 0 None).

(** A reference to a session object. *)
Definition SessionRef : Type := nat.

(** What the transport is handed for one call of [session.request]. *)
Record Request : Type := mkRequest {
  req_client : ClientKind;
  req_method : string;
  req_base_url : string;
  req_path : string;
  req_headers : gmap string string;
  req_params : list (string * string);
  req_timeout : Z;
  req_auth : option (string * string);
  req_json : Json
}.

(** An httpx response by what the code observes of it: [status_code],
    [headers], [text], and the outcome of [r.json()] ([None] when the text
    is not JSON and [r.json()] raises [JSONDecodeError]). *)
Record Response : Type := mkResponse {
  status_code : Z;
  resp_headers : list (string * string);
  text : string;
  decoded : option Json
}.

(** Modelled from the spec: [postgrest_py/exceptions.py] is not among the
    sources.  "API Error: {message, details, hint, code} mirroring the
    server's structured error body", "missing fields default to
    empty/null". *)
Record APIError : Type := mkAPIError {
  message : option Json;
  details : option Json;
  hint : option Json;
  code : option Json
}.

Definition APIError_init (error : Json) : APIError :=
  {| message := dict_get "message" error;
     details := dict_get "details" error;
     hint := dict_get "hint" error;
     code := dict_get "code" error |}.

(** The exceptions that cross this code. *)
Inductive Exn : Type :=
| ValueError (msg : string)
| JSONDecodeError
| ValidationError (msg : string)
| APIErrorExn (e : APIError)
| AttributeError (attr : string)
| TransportError (msg : string).

(** [isinstance(e, ValueError)]: [json.JSONDecodeError] and pydantic's
    [ValidationError] both derive from [ValueError]. *)
Definition isinstance_ValueError (e : Exn) : bool :=
  match e with
  | ValueError _ | JSONDecodeError | ValidationError _ => true
  | _ => false
  end.

Inductive Result (A : Type) : Type :=
| Ok (a : A)
| Raise (e : Exn).
Arguments Ok {A} a.
Arguments Raise {A} e.

(** ** The store and the monad *)

Record World : Type := mkWorld {
  sessions : gmap SessionRef Session;
  sent : list Request
}.

Definition M (A : Type) : Type := World → Result A * World.

#[global] Instance M_ret : MRet M := λ A a w, (Ok a, w).
#[global] Instance M_bind : MBind M := λ A B f m w,
  match m w with
  | (Ok a, w') => f a w'
  | (Raise e, w') => (Raise e, w')
  end.

Definition raise {A : Type} (e : Exn) : M A := λ w, (Raise e, w).

(** Attribute reads and writes on a session object. *)
Definition get_session (r : SessionRef) : M Session :=
  λ w, (Ok (sessions w !!! r), w).

Definition put_session (r : SessionRef) (s : Session) : M unit :=
  λ w, (Ok tt, mkWorld (<[r := s]> (sessions w)) (sent w)).

(** Constructing an httpx client allocates a new object. *)
Definition new_session (s : Session) : M SessionRef :=
  λ w, let r := fresh (dom (sessions w)) in
       (Ok r, mkWorld (<[r := s]> (sessions w)) (sent w)).

(** [obj.attr = v] on a session object. *)
Definition modify_session (r : SessionRef) (f : Session → Session) : M unit :=
  λ w, (Ok tt, mkWorld (<[r := f (sessions w !!! r)]> (sessions w)) (sent w)).

Definition set_auth (a : option (string * string)) (s : Session) : Session :=
  mkSession (kind s) (base_url s) (headers s) (params s) (timeout s) a.

Definition set_params (p : list (string * string)) (s : Session) : Session :=
  mkSession (kind s) (base_url s) (headers s) p (timeout s) (auth s).

Definition set_headers (h : gmap string string) (s : Session) : Session :=
  mkSession (kind s) (base_url s) h (params s) (timeout s) (auth s).

(** [str(url)], [headers.items()] and [dict(pairs)]. *)
Definition str (u : string) : string := u.
Definition items (h : gmap string string) : list (string * string) := map_to_list h.
Definition dict (pairs : list (string * string)) : gmap string string := list_to_map pairs.

(** ** The transport

    The injected HTTP transport: which response (or transport failure) a
    request meets, given the requests sent before it. *)
Class Transport : Type := {
  respond : list Request → Request → Result Response
}.

Section SessionCalls.
Context `{Transport}.

(** [session.request(method, path, json=json)]: one request, built from
    the session's current attributes, is handed to the transport. *)
Definition Session_request (r : SessionRef) (method path : string) (json : Json) : M Response :=
  λ w, let s := sessions w !!! r in
       let req := mkRequest (kind s) method (base_url s) path (headers s)
                            (params s) (timeout s) (auth s) json in
       (respond (sent w) req, mkWorld (sessions w) (sent w ++ [req])).

(** [session.post(path, json=json)]. *)
Definition Session_post (r : SessionRef) (path : string) (json : Json) : M Response :=
  Session_request r "POST" path json.

End SessionCalls.

(** [r.json()]. *)
Definition Response_json (r : Response) : M Json :=
  match decoded r with
  | Some j => mret j
  | None => raise JSONDecodeError
  end.

(** ** What [base_request_builder] provides

    [postgrest_py/base_request_builder.py] and [postgrest_py/types.py] are
    not among the sources; the request builders use them through this
    interface. *)
Inductive CountMethod : Type := count_exact | count_planned | count_estimated.
Inductive ReturnMethod : Type := minimal | headers_only | representation.

(** A pydantic model class: its name, the optional [__table_name__] class
    variable, and which rows its schema accepts. *)
Record ModelClass : Type := mkModelClass {
  __name__ : string;
  __table_name__ : option string;
  accepts : Json → bool
}.

(** What can stand between the brackets of [APIResponse[...]] at run time:
    [Dict[str, Any]], a model class, or a type variable object. *)
Inductive TypeArg : Type :=
| Dict_str_Any
| Model (m : ModelClass)
| TypeVar (name : string).

(** [_T = TypeVar("_T", bound=BaseModel)], line 154. *)
Definition _T : TypeArg := TypeVar "_T".

Record APIResponse : Type := mkAPIResponse {
  data : Json;
  count : option Z;
  status : Z
}.

Class BaseRequestBuilder : Type := {
  (** [pre_select(session, *columns, count=count)] and its siblings: each
      may update the session it is given and returns [(method, json)]. *)
  pre_select : Session → list string → option CountMethod → Session * (string * Json);
  pre_insert : Session → Json → option CountMethod → ReturnMethod → bool →
               Session * (string * Json);
  pre_upsert : Session → Json → option CountMethod → ReturnMethod → bool →
               Session * (string * Json);
  pre_update : Session → Json → option CountMethod → ReturnMethod →
               Session * (string * Json);
  pre_delete : Session → option CountMethod → ReturnMethod → Session * (string * Json);
  (** [APIResponse[model].from_http_request_response(r)]. *)
  from_http_request_response : TypeArg → Response → Result APIResponse
}.

(** Run a helper that takes the session object and may update it. *)
Definition with_session {A : Type} (r : SessionRef) (f : Session → Session * A) : M A :=
  λ w, let '(s', a) := f (sessions w !!! r) in
       (Ok a, mkWorld (<[r := s']> (sessions w)) (sent w)).

(** ** The builder classes of [request_builder.py] *)

(** The classes a query builder object can be an instance of, and the two
    mix-ins they inherit from. *)
Inductive PyClass : Type :=
| BaseFilterRequestBuilder
| BaseSelectRequestBuilder
| SyncQueryRequestBuilder
| SyncFilterRequestBuilder
| SyncSelectRequestBuilder
| _SyncModelQueryRequestBuilder
| _SyncModelFilterRequestBuilder
| _SyncModelSelectRequestBuilder.

(** The method families a caller can name on a builder. *)
Inductive Method : Type :=
| m_execute
| m_filter | m_order | m_limit | m_range
| m_select | m_insert | m_upsert | m_update | m_delete.

#[global] Instance Method_eq_dec : EqDecision Method.
Proof. solve_decision. Defined.

#[global] Instance PyClass_eq_dec : EqDecision PyClass.
Proof. solve_decision. Defined.

(** The base classes in each [class X(A, B)] header, left to right. *)
Definition bases (c : PyClass) : list PyClass :=
  match c with
  | BaseFilterRequestBuilder => []
  | BaseSelectRequestBuilder => []
  | SyncQueryRequestBuilder => []
  | SyncFilterRequestBuilder => [BaseFilterRequestBuilder; SyncQueryRequestBuilder]
  | SyncSelectRequestBuilder => [BaseSelectRequestBuilder; SyncQueryRequestBuilder]
  | _SyncModelQueryRequestBuilder => [SyncQueryRequestBuilder]
  | _SyncModelFilterRequestBuilder => [BaseFilterRequestBuilder; _SyncModelQueryRequestBuilder]
  | _SyncModelSelectRequestBuilder => [BaseSelectRequestBuilder; _SyncModelQueryRequestBuilder]
  end.

(** The public methods each class body defines itself.  For the classes of
    [request_builder.py] this is read off the source.

    Modelled from the spec: the bodies of the two mix-ins are in
    [base_request_builder.py], which is not among the sources.  "From
    Filterable, any number of filter/order/range calls may be chained";
    "accepts chained filter/order/limit calls (for filterable results)".
    The filter mix-in contributes the filter family, the select mix-in
    the filter family together with order, limit and range. *)
Definition own_methods (c : PyClass) : list Method :=
  match c with
  | BaseFilterRequestBuilder => [m_filter]
  | BaseSelectRequestBuilder => [m_filter; m_order; m_limit; m_range]
  | SyncQueryRequestBuilder => [m_execute]
  | _SyncModelQueryRequestBuilder => [m_execute]
  | SyncFilterRequestBuilder | SyncSelectRequestBuilder
  | _SyncModelFilterRequestBuilder | _SyncModelSelectRequestBuilder => []
  end.

(** Attribute lookup along the inheritance graph: the class itself, then
    its bases from left to right.  The graph has depth two. *)
Fixpoint lookup_method (depth : nat) (c : PyClass) (m : Method) : option PyClass :=
  if bool_decide (m ∈ own_methods c) then Some c
  else match depth with
       | O => None
       | S d =>
           (fix first (cs : list PyClass) : option PyClass :=
              match cs with
              | [] => None
              | b :: rest =>
                  match lookup_method d b m with
                  | Some definer => Some definer
                  | None => first rest
                  end
              end) (bases c)
       end.

Definition resolve (c : PyClass) (m : Method) : option PyClass := lookup_method 2 c m.

(** An instance of [SyncQueryRequestBuilder] or of a subclass: the four
    attributes [__init__] stores, lines 33-36. *)
Module QB.
Record t : Type := mk {
  cls : PyClass;
  session : SessionRef;
  path : string;
  http_method : string;
  json : Json
}.
End QB.

(** The table-level builder classes of [_sync/request_builder.py]. *)
Inductive TableClass : Type :=
| SyncRequestBuilder
| _SyncModelRequestBuilder.

(** An instance of [SyncRequestBuilder] or of its subclass: [session] and
    [path], lines 80-81. *)
Module RB.
Record t : Type := mk {
  cls : TableClass;
  session : SessionRef;
  path : string
}.
End RB.

(** The table-level builder classes that [_async/client.py] imports from
    [_async/request_builder.py]; the client constructs them from
    [(session, path)] and calls nothing on them. *)
Inductive AsyncTableClass : Type :=
| AsyncRequestBuilder
| _AsyncModelRequestBuilder.

Module ARB.
Record t : Type := mk {
  cls : AsyncTableClass;
  session : SessionRef;
  path : string
}.
End ARB.

(** A client object: [self.session]. *)
Module Client.
Record t : Type := mk { session : SessionRef }.
End Client.

(** *** [SyncQueryRequestBuilder] and [_SyncModelQueryRequestBuilder] *)

Section Execute.
Context `{Transport} `{BaseRequestBuilder}.

(** [SyncQueryRequestBuilder.execute], lines 38-49. *)
Definition SyncQueryRequestBuilder_execute (self : QB.t) (model : TypeArg) : M APIResponse :=
  r ← Session_request (QB.session self) (QB.http_method self) (QB.path self) (QB.json self);
  match from_http_request_response model r with
  | Ok response => mret response
  | Raise e =>
      if isinstance_ValueError e
      then error ← Response_json r; raise (APIErrorExn (APIError_init error))
      else raise e
  end.

(** [_SyncModelQueryRequestBuilder.execute], lines 162-173.  The name [_T]
    in the method body is the module-level type variable object: Python
    binds no type argument at run time. *)
Definition _SyncModelQueryRequestBuilder_execute (self : QB.t) : M APIResponse :=
  r ← Session_request (QB.session self) (QB.http_method self) (QB.path self) (QB.json self);
  match from_http_request_response _T r with
  | Ok response => mret response
  | Raise e =>
      if isinstance_ValueError e
      then error ← Response_json r; raise (APIErrorExn (APIError_init error))
      else raise e
  end.

(** [builder.execute()] on any query builder object: the method found
    along the inheritance graph runs; the untyped one with its default
    [model=Dict[str, Any]]. *)
Definition call_execute (self : QB.t) : M APIResponse :=
  match resolve (QB.cls self) m_execute with
  | Some _SyncModelQueryRequestBuilder => _SyncModelQueryRequestBuilder_execute self
  | Some _ => SyncQueryRequestBuilder_execute self Dict_str_Any
  | None => raise (AttributeError "execute")
  end.

End Execute.

(** Modelled from the spec: the filter methods are in
    [base_request_builder.py].  "produce the exact query-parameter string
    PostgREST expects, e.g. age=gte.18"; "each returning an updated
    builder (functionally, no additional mutation beyond appending to the
    query-parameter collection)".  The call fails with [AttributeError] on
    an object whose class has no filter method. *)
Definition call_filter (self : QB.t) (column operator criteria : string) : M QB.t :=
  match resolve (QB.cls self) m_filter with
  | Some _ =>
      s ← get_session (QB.session self);
      _ ← put_session (QB.session self)
            (set_params (params s ++ [(column, operator +:+ "." +:+ criteria)]) s);
      mret self
  | None => raise (AttributeError "filter")
  end.



(** *** [SyncRequestBuilder], lines 78-151 *)

Module SyncRequestBuilder.
Section Methods.
Context `{BaseRequestBuilder}.

Definition select (self : RB.t) (columns : list string) (count : option CountMethod)
  : M QB.t :=
  '(method, json) ← with_session (RB.session self) (λ s, pre_select s columns count);
  mret (QB.mk SyncSelectRequestBuilder (RB.session self) (RB.path self) method json).

Definition insert (self : RB.t) (json : Json) (count : option CountMethod)
    (returning : ReturnMethod) (upsert : bool) : M QB.t :=
  '(method, json) ← with_session (RB.session self)
                      (λ s, pre_insert s json count returning upsert);
  mret (QB.mk SyncQueryRequestBuilder (RB.session self) (RB.path self) method json).

Definition upsert (self : RB.t) (json : Json) (count : option CountMethod)
    (returning : ReturnMethod) (ignore_duplicates : bool) : M QB.t :=
  '(method, json) ← with_session (RB.session self)
                      (λ s, pre_upsert s json count returning ignore_duplicates);
  mret (QB.mk SyncQueryRequestBuilder (RB.session self) (RB.path self) method json).

Definition update (self : RB.t) (json : Json) (count : option CountMethod)
    (returning : ReturnMethod) : M QB.t :=
  '(method, json) ← with_session (RB.session self)
                      (λ s, pre_update s json count returning);
  mret (QB.mk SyncFilterRequestBuilder (RB.session self) (RB.path self) method json).

Definition delete (self : RB.t) (count : option CountMethod) (returning : ReturnMethod)
  : M QB.t :=
  '(method, json) ← with_session (RB.session self) (λ s, pre_delete s count returning);
  mret (QB.mk SyncFilterRequestBuilder (RB.session self) (RB.path self) method json).

End Methods.
End SyncRequestBuilder.

(** *** [_SyncModelRequestBuilder], lines 202-271 *)

Module _SyncModelRequestBuilder.
Section Methods.
Context `{BaseRequestBuilder}.

Definition select (self : RB.t) (columns : list string) (count : option CountMethod)
  : M QB.t :=
  '(method, json) ← with_session (RB.session self) (λ s, pre_select s columns count);
  mret (QB.mk _SyncModelSelectRequestBuilder (RB.session self) (RB.path self) method json).

Definition insert (self : RB.t) (json : Json) (count : option CountMethod)
    (returning : ReturnMethod) (upsert : bool) : M QB.t :=
  '(method, json) ← with_session (RB.session self)
                      (λ s, pre_insert s json count returning upsert);
  mret (QB.mk _SyncModelQueryRequestBuilder (RB.session self) (RB.path self) method json).

Definition upsert (self : RB.t) (json : Json) (count : option CountMethod)
    (returning : ReturnMethod) (ignore_duplicates : bool) : M QB.t :=
  '(method, json) ← with_session (RB.session self)
                      (λ s, pre_upsert s json count returning ignore_duplicates);
  mret (QB.mk _SyncModelQueryRequestBuilder (RB.session self) (RB.path self) method json).

Definition update (self : RB.t) (json : Json) (count : option CountMethod)
    (returning : ReturnMethod) : M QB.t :=
  '(method, json) ← with_session (RB.session self)
                      (λ s, pre_update s json count returning);
  mret (QB.mk _SyncModelFilterRequestBuilder (RB.session self) (RB.path self) method json).

Definition delete (self : RB.t) (count : option CountMethod) (returning : ReturnMethod)
  : M QB.t :=
  '(method, json) ← with_session (RB.session self) (λ s, pre_delete s count returning);
  mret (QB.mk _SyncModelFilterRequestBuilder (RB.session self) (RB.path self) method json).

End Methods.
End _SyncModelRequestBuilder.

(** ** The clients *)

(** [getattr(model, "__table_name__", model.__name__)]. *)
Definition table_name_of (model : ModelClass) : string :=
  default (__name__ model) (__table_name__ model).

(** *** [SyncPostgrestClient], [_sync/client.py] *)

Module SyncPostgrestClient.
Section Methods.
Context `{Transport}.

(** Lines 41-51. *)
Definition create_session (base_url : string) (headers : gmap string string) (timeout : Z)
  : M SessionRef :=
  new_session (mkSession SyncClient base_url headers [] timeout None).

(** Lines 62-68. *)
Definition _pre_table_op (self : Client.t) (table_name : string) : M (SessionRef * string) :=
  s ← get_session (Client.session self);
  let base_url := str (base_url s) in
  let headers := dict (items (headers s)) in
  session ← create_session base_url headers (timeout s);
  s ← get_session (Client.session self);
  _ ← modify_session session (set_auth (auth s));
  mret (session, "/" +:+ table_name).

(** Lines 70-73. *)
Definition from_ (self : Client.t) (table : string) : M RB.t :=
  '(session, path) ← _pre_table_op self table;
  mret (RB.mk SyncRequestBuilder session path).

(** Lines 75-77. *)
Definition table (self : Client.t) (table : string) : M RB.t := from_ self table.

(** Lines 79-92. *)
Definition from_model (self : Client.t) (model : ModelClass) : M RB.t :=
  let table_name := table_name_of model in
  '(session, path) ← _pre_table_op self table_name;
  mret (RB.mk _SyncModelRequestBuilder session path).

(** Lines 94-97. *)
Definition from_table (self : Client.t) (table : string) : M RB.t := from_ self table.

(** Lines 99-102. *)
Definition rpc (self : Client.t) (func : string) (params : Json) : M Response :=
  let path := "/rpc/" +:+ func in
  Session_post (Client.session self) path params.

End Methods.
End SyncPostgrestClient.

(** *** [AsyncPostgrestClient], [_async/client.py]

    The result of an [async def] is what awaiting it yields. *)

Module AsyncPostgrestClient.
Section Methods.
Context `{Transport}.

Definition create_session (base_url : string) (headers : gmap string string) (timeout : Z)
  : M SessionRef :=
  new_session (mkSession AsyncClient base_url headers [] timeout None).

Definition _pre_table_op (self : Client.t) (table_name : string) : M (SessionRef * string) :=
  s ← get_session (Client.session self);
  let base_url := str (base_url s) in
  let headers := dict (items (headers s)) in
  session ← create_session base_url headers (timeout s);
  s ← get_session (Client.session self);
  _ ← modify_session session (set_auth (auth s));
  mret (session, "/" +:+ table_name).

(** Line 73 builds the path a second time instead of using [path]. *)
Definition from_ (self : Client.t) (table : string) : M ARB.t :=
  '(session, path) ← _pre_table_op self table;
  mret (ARB.mk AsyncRequestBuilder session ("/" +:+ table)).

Definition table (self : Client.t) (table : string) : M ARB.t := from_ self table.

Definition from_model (self : Client.t) (model : ModelClass) : M ARB.t :=
  let table_name := table_name_of model in
  '(session, path) ← _pre_table_op self table_name;
  mret (ARB.mk _AsyncModelRequestBuilder session path).

Definition from_table (self : Client.t) (table : string) : M ARB.t := from_ self table.

Definition rpc (self : Client.t) (func : string) (params : Json) : M Response :=
  let path := "/rpc/" +:+ func in
  Session_post (Client.session self) path params.

End Methods.
End AsyncPostgrestClient.

(** ** Calls, as a caller writes them *)

(** The table-level entry points of a client. *)
Inductive TableOp : Type :=
| op_from_ (table : string)
| op_table (table : string)
| op_from_model (model : ModelClass)
| op_from_table (table : string).

Definition sync_table_op (c : Client.t) (op : TableOp) : M RB.t :=
  match op with
  | op_from_ table => SyncPostgrestClient.from_ c table
  | op_table table => SyncPostgrestClient.table c table
  | op_from_model model => SyncPostgrestClient.from_model c model
  | op_from_table table => SyncPostgrestClient.from_table c table
  end.

Definition async_table_op (c : Client.t) (op : TableOp) : M ARB.t :=
  match op with
  | op_from_ table => AsyncPostgrestClient.from_ c table
  | op_table table => AsyncPostgrestClient.table c table
  | op_from_model model => AsyncPostgrestClient.from_model c model
  | op_from_table table => AsyncPostgrestClient.from_table c table
  end.

(** The table name each entry point is given. *)
Definition op_table_name (op : TableOp) : string :=
  match op with
  | op_from_ table | op_table table | op_from_table table => table
  | op_from_model model => table_name_of model
  end.

(** An operation method call with its arguments. *)
Inductive OpCall : Type :=
| Select (columns : list string) (count : option CountMethod)
| Insert (json : Json) (count : option CountMethod) (returning : ReturnMethod) (upsert : bool)
| Upsert (json : Json) (count : option CountMethod) (returning : ReturnMethod)
         (ignore_duplicates : bool)
| Update (json : Json) (count : option CountMethod) (returning : ReturnMethod)
| Delete (count : option CountMethod) (returning : ReturnMethod).

Section Calls.
Context `{Transport} `{BaseRequestBuilder}.

(** [builder.select(...)], [builder.insert(...)], ...: the method of the
    object's class runs. *)
Definition call_op (self : RB.t) (call : OpCall) : M QB.t :=
  match RB.cls self, call with
  | SyncRequestBuilder, Select columns count =>
      SyncRequestBuilder.select self columns count
  | SyncRequestBuilder, Insert json count returning upsert =>
      SyncRequestBuilder.insert self json count returning upsert
  | SyncRequestBuilder, Upsert json count returning ignore_duplicates =>
      SyncRequestBuilder.upsert self json count returning ignore_duplicates
  | SyncRequestBuilder, Update json count returning =>
      SyncRequestBuilder.update self json count returning
  | SyncRequestBuilder, Delete count returning =>
      SyncRequestBuilder.delete self count returning
  | _SyncModelRequestBuilder, Select columns count =>
      _SyncModelRequestBuilder.select self columns count
  | _SyncModelRequestBuilder, Insert json count returning upsert =>
      _SyncModelRequestBuilder.insert self json count returning upsert
  | _SyncModelRequestBuilder, Upsert json count returning ignore_duplicates =>
      _SyncModelRequestBuilder.upsert self json count returning ignore_duplicates
  | _SyncModelRequestBuilder, Update json count returning =>
      _SyncModelRequestBuilder.update self json count returning
  | _SyncModelRequestBuilder, Delete count returning =>
      _SyncModelRequestBuilder.delete self count returning
  end.

(** [q.f1(...).f2(...)...]: filter calls chained on a query builder. *)
Fixpoint call_filters (q : QB.t) (fs : list (string * string * string)) : M QB.t :=
  match fs with
  | [] => mret q
  | (column, operator, criteria) :: rest =>
      q' ← call_filter q column operator criteria;
      call_filters q' rest
  end.

(** A call chain: [builder.op(...).f1(...)...fn(...).execute()]. *)
Definition run_chain (self : RB.t) (call : OpCall) (fs : list (string * string * string))
  : M APIResponse :=
  q ← call_op self call;
  q ← call_filters q fs;
  call_execute q.

(** The request [execute] hands to the transport for builder [q] when the
    session object is in state [s]. *)
Definition request_of (s : Session) (q : QB.t) : Request :=
  mkRequest (kind s) (QB.http_method q) (base_url s) (QB.path q) (headers s)
            (params s) (timeout s) (auth s) (QB.json q).

End Calls.

(** The spec's description of a session clone: "copy current base URL,
    headers, timeout, and auth", nothing else carried over. *)
Definition session_clone (k : ClientKind) (s : Session) : Session :=
  mkSession k (base_url s) (headers s) [] (timeout s) (auth s).


(** ** A reading of the missing modules, from the spec

    Used to run the code on concrete inputs.  The general theorems below
    hold for every [BaseRequestBuilder] and every [Transport]. *)

Definition return_directive (returning : ReturnMethod) : string :=
  "return=" +:+ match returning with
                | minimal => "minimal"
                | headers_only => "headers-only"
                | representation => "representation"
                end.

Definition count_directive (count : option CountMethod) : list string :=
  match count with
  | Some count_exact => ["count=exact"]
  | Some count_planned => ["count=planned"]
  | Some count_estimated => ["count=estimated"]
  | None => []
  end.

Definition set_prefer (directives : list string) (s : Session) : Session :=
  set_headers (<["Prefer" := String.concat "," directives]> (headers s)) s.

(** Modelled from the spec: [pre_select] is in [base_request_builder.py].
    "select→GET"; "query containing select=a,b"; "count=exact|planned|
    estimated (omitted if no count requested)"; the body is "absent for
    select/delete". *)
Definition spec_pre_select (s : Session) (columns : list string)
    (count : option CountMethod) : Session * (string * Json) :=
  let s1 := set_params (filter (λ kv, kv.1 ≠ "select") (params s)
                        ++ [("select", String.concat "," columns)]) s in
  let s2 := match count with
            | Some _ => set_prefer (count_directive count) s1
            | None => s1
            end in
  (s2, ("GET", JNull)).

(** Modelled from the spec: [pre_insert], [pre_upsert], [pre_update] and
    [pre_delete] are in [base_request_builder.py].  "insert→POST,
    upsert→POST (with resolution directive distinguishing merge vs
    ignore), update→PATCH, delete→DELETE"; the Prefer header is "a
    comma-joined set of directives: return=..., count=... (omitted if no
    count requested), resolution=merge-duplicates|ignore-duplicates (only
    for upsert)"; "insert(..., upsert=True, returning=minimal) produces a
    POST with Prefer: return=minimal,resolution=merge-duplicates". *)
Definition spec_pre_insert (s : Session) (json : Json) (count : option CountMethod)
    (returning : ReturnMethod) (upsert : bool) : Session * (string * Json) :=
  (set_prefer ([return_directive returning] ++ count_directive count
               ++ (if upsert then ["resolution=merge-duplicates"] else [])) s,
   ("POST", json)).

Definition spec_pre_upsert (s : Session) (json : Json) (count : option CountMethod)
    (returning : ReturnMethod) (ignore_duplicates : bool) : Session * (string * Json) :=
  (set_prefer ([return_directive returning] ++ count_directive count
               ++ [if ignore_duplicates then "resolution=ignore-duplicates"
                   else "resolution=merge-duplicates"]) s,
   ("POST", json)).

Definition spec_pre_update (s : Session) (json : Json) (count : option CountMethod)
    (returning : ReturnMethod) : Session * (string * Json) :=
  (set_prefer ([return_directive returning] ++ count_directive count) s, ("PATCH", json)).

Definition spec_pre_delete (s : Session) (count : option CountMethod)
    (returning : ReturnMethod) : Session * (string * Json) :=
  (set_prefer ([return_directive returning] ++ count_directive count) s, ("DELETE", JNull)).

(** Decimal digits to a number; [None] on anything else. *)
Fixpoint digits_to_N (s : string) (acc : N) : option N :=
  match s with
  | EmptyString => Some acc
  | String c rest =>
      let n := Ascii.N_of_ascii c in
      if ((48 <=? n) && (n <=? 57))%N then digits_to_N rest (acc * 10 + (n - 48))%N
      else None
  end.

Fixpoint after_slash (s : string) : option string :=
  match s with
  | EmptyString => None
  | String c rest => if Ascii.eqb c "/"%char then Some rest else after_slash rest
  end.

Fixpoint find_header (name : string) (hs : list (string * string)) : option string :=
  match hs with
  | [] => None
  | (k, v) :: rest => if String.eqb k name then Some v else find_header name rest
  end.

(** Modelled from the spec: "parse Content-Range: <start>-<end>/<total>;
    total of * means count not computed → result count is absent". *)
Definition count_from_content_range (r : Response) : option Z :=
  v ← find_header "content-range" (resp_headers r);
  total ← after_slash v;
  match total with
  | EmptyString => None
  | _ => Z.of_N <$> digits_to_N total 0%N
  end.

Definition is_object (j : Json) : bool :=
  match j with JObject _ => true | _ => false end.

(** Which rows the schema named between the brackets accepts; how a bare
    type variable is treated is left to [typevar_rows]. *)
Definition row_ok (typevar_rows : Json → bool) (model : TypeArg) (row : Json) : bool :=
  match model with
  | Dict_str_Any => is_object row
  | Model m => accepts m row
  | TypeVar _ => typevar_rows row
  end.

Definition rows_ok (typevar_rows : Json → bool) (model : TypeArg) (body : Json) : bool :=
  match body with
  | JArray rows => forallb (row_ok typevar_rows model) rows
  | row => row_ok typevar_rows model row
  end.

(** Modelled from the spec: [APIResponse.from_http_request_response] is in
    [base_request_builder.py].  "attempt to decode body as JSON.  If
    decoding fails, or if status ≥ 400, construct an API Error"; "If
    decoding succeeds, optionally validate each row against a
    caller-supplied schema; a row failing validation is a hard error for
    the whole response". *)
Definition spec_from_http_request_response (typevar_rows : Json → bool)
    (model : TypeArg) (r : Response) : Result APIResponse :=
  match decoded r with
  | None => Raise JSONDecodeError
  | Some body =>
      if (400 <=? status_code r)%Z then Raise (ValueError "error response")
      else if rows_ok typevar_rows model body
           then Ok (mkAPIResponse body (count_from_content_range r) (status_code r))
           else Raise (ValidationError "row rejected by the model")
  end.

Definition spec_builder (typevar_rows : Json → bool) : BaseRequestBuilder :=
  {| pre_select := spec_pre_select;
     pre_insert := spec_pre_insert;
     pre_upsert := spec_pre_upsert;
     pre_update := spec_pre_update;
     pre_delete := spec_pre_delete;
     from_http_request_response := spec_from_http_request_response typevar_rows |}.

(** A transport that answers every request with the same outcome. *)
Definition constant_transport (outcome : Result Response) : Transport :=
  {| respond := λ _ _, outcome |}.

(** ** Concrete objects for the examples *)

Definition dq : string := String (Ascii.ascii_of_nat 34) EmptyString.

(** Status 404 with body [{"message":"not found"}]. *)
Definition response_404 : Response :=
  mkResponse 404 [("content-type", "application/json")]
    ("{" +:+ dq +:+ "message" +:+ dq +:+ ":" +:+ dq +:+ "not found" +:+ dq +:+ "}")
    (Some (JObject [("message", JString "not found")])).

(** Status 502 with an HTML body, as a proxy in front of the server sends. *)
Definition response_502 : Response :=
  mkResponse 502 [("content-type", "text/html")] "<html>Bad Gateway</html>" None.

(** Status 200 with body [[{"name":"x"}]]. *)
Definition response_rows : Response :=
  mkResponse 200 [("content-range", "0-0/*")]
    ("[{" +:+ dq +:+ "name" +:+ dq +:+ ":" +:+ dq +:+ "x" +:+ dq +:+ "}]")
    (Some (JArray [JObject [("name", JString "x")]])).

Definition has_key (key : string) (row : Json) : bool :=
  match dict_get key row with Some _ => true | None => false end.

(** [class Account(BaseModel): id: int], and a model with no required
    field that names its table. *)
Definition Account : ModelClass := mkModelClass "Account" None (has_key "id").
Definition Label : ModelClass := mkModelClass "Label" (Some "labels") is_object.

Definition session0 : Session :=
  mkSession SyncClient "http://localhost:3000"
    {[ "apikey" := "k"; "Accept-Profile" := "public" ]} [] 5 (Some ("user", "secret")).

Definition world0 : World := mkWorld {[ 0%nat := session0 ]} [].
Definition client0 : Client.t := Client.mk 0%nat.



Definition query0 : QB.t := QB.mk SyncSelectRequestBuilder 0%nat "/t" "GET" JNull.
Definition typed_query0 : QB.t := QB.mk _SyncModelSelectRequestBuilder 0%nat "/t" "GET" JNull.

(** ** Closing a client, lines 53-60 of both [client.py] files *)

(** [session.aclose()] is a method of the httpx client classes of
    [postgrest_py.utils], which are not among the sources: what it does to
    the session object it is called on is a parameter. *)
Class SessionClose : Type := {
  session_aclose : Session → Session
}.

Module SyncContext.
Section Methods.
Context `{SessionClose}.

(** Lines 59-60. *)
Definition aclose (self : Client.t) : M unit :=
  modify_session (Client.session self) session_aclose.

(** Lines 53-54. *)
Definition __enter__ (self : Client.t) : M Client.t := mret self.

(** Lines 56-57: the three arguments are not read, and the method returns
    [None]. *)
Definition __exit__ (self : Client.t) (exc : option Exn) : M unit := aclose self.

End Methods.
End SyncContext.

Module AsyncContext.
Section Methods.
Context `{SessionClose}.

Definition aclose (self : Client.t) : M unit :=
  modify_session (Client.session self) session_aclose.

Definition __aenter__ (self : Client.t) : M Client.t := mret self.

Definition __aexit__ (self : Client.t) (exc : option Exn) : M unit := aclose self.

End Methods.
End AsyncContext.

(** [bool(None)]. *)
Definition bool_of_None (_ : unit) : bool := false.

(** The [with] statement: [enter] runs, then the block with its result;
    [exit] is called with the exception the block raised, if any, and the
    exception is dropped exactly when [exit] returns a true value.  The
    result is [None] when an exception was dropped. *)
Definition py_with {A B : Type} (enter : M A) (exit : option Exn → M bool)
    (body : A → M B) : M (option B) :=
  λ w, match enter w with
       | (Raise e, w1) => (Raise e, w1)
       | (Ok a, w1) =>
           match body a w1 with
           | (Ok b, w2) =>
               match exit None w2 with
               | (Ok _, w3) => (Ok (Some b), w3)
               | (Raise e, w3) => (Raise e, w3)
               end
           | (Raise e, w2) =>
               match exit (Some e) w2 with
               | (Ok true, w3) => (Ok None, w3)
               | (Ok false, w3) => (Raise e, w3)
               | (Raise e', w3) => (Raise e', w3)
               end
           end
       end.

(** [with client as c: body(c)] and [async with client as c: body(c)]. *)
Definition with_sync_client `{SessionClose} {B : Type} (client : Client.t)
    (body : Client.t → M B) : M (option B) :=
  py_with (SyncContext.__enter__ client)
          (λ exc, r ← SyncContext.__exit__ client exc; mret (bool_of_None r)) body.

Definition with_async_client `{SessionClose} {B : Type} (client : Client.t)
    (body : Client.t → M B) : M (option B) :=
  py_with (AsyncContext.__aenter__ client)
          (λ exc, r ← AsyncContext.__aexit__ client exc; mret (bool_of_None r)) body.

(** ** Several table operations in a row *)

(** [[client.from_(t1), client.table(t2), ...]], evaluated left to right. *)
Fixpoint sync_table_ops (c : Client.t) (ops : list TableOp) : M (list RB.t) :=
  match ops with
  | [] => mret []
  | op :: rest =>
      b ← sync_table_op c op;
      bs ← sync_table_ops c rest;
      mret (b :: bs)
  end.



(** A closing that drops the authentication of the session. *)
Definition closing_drops_auth : SessionClose := {| session_aclose := set_auth None |}.

(** * Theorems *)

(** ** The store *)

Lemma fresh_session_not_live (w : World) :
  sessions w !! fresh (dom (sessions w)) = None.
Proof. apply not_elem_of_dom, is_fresh. Qed.

Lemma fresh_session_differs (w : World) (r : SessionRef) (s : Session) :
  sessions w !! r = Some s → fresh (dom (sessions w)) ≠ r.
Proof.
  intros Hlive Heq. pose proof (fresh_session_not_live w) as Hnone.
  rewrite Heq in Hnone. congruence.
Qed.

Lemma dict_items (h : gmap string string) : dict (items h) = h.
Proof. unfold dict, items. apply list_to_map_to_list. Qed.

(** Unfold one layer of the monad. *)
Ltac run :=
  unfold mbind, M_bind, mret, M_ret, raise, get_session, put_session,
    new_session, modify_session, with_session; simpl.

Ltac clone_step Hlive :=
  run;
  rewrite (lookup_total_correct _ _ _ Hlive);
  rewrite (lookup_total_insert_ne _ _ _ _ (fresh_session_differs _ _ _ Hlive));
  rewrite (lookup_total_correct _ _ _ Hlive);
  rewrite lookup_total_insert_eq, insert_insert_eq;
  unfold str; rewrite dict_items.

Lemma sync_pre_table_op_run (c : Client.t) (name : string) (w : World) (s : Session) :
  sessions w !! Client.session c = Some s →
  SyncPostgrestClient._pre_table_op c name w =
    (Ok (fresh (dom (sessions w)), "/" +:+ name),
     mkWorld (<[fresh (dom (sessions w)) := session_clone SyncClient s]> (sessions w))
             (sent w)).
Proof.
  intros Hlive. unfold SyncPostgrestClient._pre_table_op,
    SyncPostgrestClient.create_session.
  clone_step Hlive. reflexivity.
Qed.

Lemma async_pre_table_op_run (c : Client.t) (name : string) (w : World) (s : Session) :
  sessions w !! Client.session c = Some s →
  AsyncPostgrestClient._pre_table_op c name w =
    (Ok (fresh (dom (sessions w)), "/" +:+ name),
     mkWorld (<[fresh (dom (sessions w)) := session_clone AsyncClient s]> (sessions w))
             (sent w)).
Proof.
  intros Hlive. unfold AsyncPostgrestClient._pre_table_op,
    AsyncPostgrestClient.create_session.
  clone_step Hlive. reflexivity.
Qed.

Lemma sync_table_op_run (c : Client.t) (op : TableOp) (w : World) (s : Session) :
  sessions w !! Client.session c = Some s →
  ∃ b, sync_table_op c op w =
         (Ok b, mkWorld (<[RB.session b := session_clone SyncClient s]> (sessions w)) (sent w))
       ∧ RB.session b = fresh (dom (sessions w))
       ∧ RB.path b = "/" +:+ op_table_name op
       ∧ RB.cls b = match op with
                    | op_from_model _ => _SyncModelRequestBuilder
                    | _ => SyncRequestBuilder
                    end.
Proof.
  intros Hlive.
  destruct op as [table|table|model|table]; simpl;
    unfold SyncPostgrestClient.table, SyncPostgrestClient.from_table,
      SyncPostgrestClient.from_, SyncPostgrestClient.from_model;
    unfold mbind, M_bind;
    rewrite (sync_pre_table_op_run _ _ _ _ Hlive); simpl;
    eexists (RB.mk _ _ _); simpl; repeat split.
Qed.

Lemma async_table_op_run (c : Client.t) (op : TableOp) (w : World) (s : Session) :
  sessions w !! Client.session c = Some s →
  ∃ b, async_table_op c op w =
         (Ok b, mkWorld (<[ARB.session b := session_clone AsyncClient s]> (sessions w)) (sent w))
       ∧ ARB.session b = fresh (dom (sessions w))
       ∧ ARB.path b = "/" +:+ op_table_name op
       ∧ ARB.cls b = match op with
                     | op_from_model _ => _AsyncModelRequestBuilder
                     | _ => AsyncRequestBuilder
                     end.
Proof.
  intros Hlive.
  destruct op as [table|table|model|table]; simpl;
    unfold AsyncPostgrestClient.table, AsyncPostgrestClient.from_table,
      AsyncPostgrestClient.from_, AsyncPostgrestClient.from_model;
    unfold mbind, M_bind;
    rewrite (async_pre_table_op_run _ _ _ _ Hlive); simpl;
    eexists (ARB.mk _ _ _); simpl; repeat split.
Qed.

(** ** What each builder method does to the store *)

Section Frames.
Context `{Transport} `{BaseRequestBuilder}.

Lemma with_session_run {A : Type} (r : SessionRef) (f : Session → Session * A) (w : World) :
  with_session r f w =
    (Ok (f (sessions w !!! r)).2,
     mkWorld (<[r := (f (sessions w !!! r)).1]> (sessions w)) (sent w)).
Proof. unfold with_session. destruct (f _) as [s' a]. reflexivity. Qed.

(** An operation method returns a query builder over the parent's session
    and path, updates that one session object and sends nothing. *)
Lemma call_op_run (b : RB.t) (call : OpCall) (w : World) :
  ∃ q s', call_op b call w =
            (Ok q, mkWorld (<[RB.session b := s']> (sessions w)) (sent w))
          ∧ QB.session q = RB.session b ∧ QB.path q = RB.path b
          ∧ is_Some (resolve (QB.cls q) m_execute).
Proof.
  unfold call_op.
  destruct (RB.cls b), call;
    unfold SyncRequestBuilder.select, SyncRequestBuilder.insert,
      SyncRequestBuilder.upsert, SyncRequestBuilder.update, SyncRequestBuilder.delete,
      _SyncModelRequestBuilder.select, _SyncModelRequestBuilder.insert,
      _SyncModelRequestBuilder.upsert, _SyncModelRequestBuilder.update,
      _SyncModelRequestBuilder.delete;
    unfold mbind, M_bind; rewrite with_session_run;
    match goal with
    | |- context [ (?f (sessions w !!! RB.session b)) ] =>
        destruct (f (sessions w !!! RB.session b)) as [s1 [meth body]]
    end; simpl; eexists _, s1; repeat split; simpl; vm_compute; eauto.
Qed.

Lemma call_filter_run (q : QB.t) (column operator criteria : string) (w : World) :
  ∃ res s', call_filter q column operator criteria w = (res, mkWorld s' (sent w))
            ∧ (∀ r, r ≠ QB.session q → s' !! r = sessions w !! r)
            ∧ (∀ q', res = Ok q' → q' = q).
Proof.
  unfold call_filter. destruct (resolve (QB.cls q) m_filter) as [definer|].
  - run. eexists _, _. split; [reflexivity|]. split.
    + intros r Hr. rewrite lookup_insert_ne; [reflexivity | congruence].
    + intros q' Hq'. congruence.
  - run. exists (Raise (AttributeError "filter")), (sessions w). split.
    + destruct w; reflexivity.
    + split; [reflexivity | discriminate].
Qed.

Lemma call_filters_run (fs : list (string * string * string)) (q : QB.t) (w : World) :
  ∃ res s', call_filters q fs w = (res, mkWorld s' (sent w))
            ∧ (∀ r, r ≠ QB.session q → s' !! r = sessions w !! r)
            ∧ (∀ q', res = Ok q' → q' = q).
Proof.
  revert q w. induction fs as [|[[column operator] criteria] rest IH]; intros q w.
  - simpl. exists (Ok q), (sessions w). split; [destruct w; reflexivity|].
    split; [reflexivity | congruence].
  - simpl. unfold mbind, M_bind.
    destruct (call_filter_run q column operator criteria w)
      as (res & s1 & Hrun & Hframe & Hsame).
    rewrite Hrun. destruct res as [q1|e].
    + rewrite (Hsame q1 eq_refl).
      destruct (IH q (mkWorld s1 (sent w))) as (res2 & s2 & Hrun2 & Hframe2 & Hsame2).
      rewrite Hrun2. simpl. exists res2, s2. split; [reflexivity|]. split.
      * intros r Hr. rewrite (Hframe2 r Hr). simpl. apply Hframe, Hr.
      * exact Hsame2.
    + exists (Raise e), s1. split; [reflexivity|]. split; [exact Hframe | discriminate].
Qed.

Lemma untyped_execute_world (q : QB.t) (model : TypeArg) (w : World) :
  (SyncQueryRequestBuilder_execute q model w).2 =
    mkWorld (sessions w) (sent w ++ [request_of (sessions w !!! QB.session q) q]).
Proof.
  unfold SyncQueryRequestBuilder_execute, Session_request, Response_json, request_of. run.
  destruct (respond _ _) as [r|e]; [|reflexivity].
  destruct (from_http_request_response model r) as [response|e]; [reflexivity|].
  destruct (isinstance_ValueError e); [|reflexivity].
  destruct (decoded r); reflexivity.
Qed.

Lemma typed_execute_world (q : QB.t) (w : World) :
  (_SyncModelQueryRequestBuilder_execute q w).2 =
    mkWorld (sessions w) (sent w ++ [request_of (sessions w !!! QB.session q) q]).
Proof. apply (untyped_execute_world q _T w). Qed.

Lemma call_execute_world (q : QB.t) (w : World) :
  sessions (call_execute q w).2 = sessions w.
Proof.
  unfold call_execute. destruct (resolve (QB.cls q) m_execute) as [definer|].
  - destruct definer; rewrite ?typed_execute_world, ?untyped_execute_world; reflexivity.
  - reflexivity.
Qed.

(** A whole call chain touches no session object but its builder's. *)
Lemma run_chain_frame (b : RB.t) (call : OpCall) (fs : list (string * string * string))
    (w : World) (r : SessionRef) :
  r ≠ RB.session b →
  sessions (run_chain b call fs w).2 !! r = sessions w !! r.
Proof.
  intros Hr. unfold run_chain, mbind, M_bind.
  destruct (call_op_run b call w) as (q & s' & Hop & Hsess & _ & _). rewrite Hop.
  destruct (call_filters_run fs q (mkWorld (<[RB.session b := s']> (sessions w)) (sent w)))
    as (res & s2 & Hfs & Hframe & Hsame).
  rewrite Hfs. simpl in *.
  assert (s2 !! r = sessions w !! r) as Hs2.
  { rewrite Hframe by congruence. rewrite lookup_insert_ne; [reflexivity | congruence]. }
  destruct res as [q2|e]; simpl.
  - rewrite call_execute_world. exact Hs2.
  - exact Hs2.
Qed.

End Frames.

(** ** Table operations and their sessions *)

(** C3.  Every table operation of a client ([from_], [table],
    [from_model], and the deprecated [from_table]) returns a builder over
    a session object that did not exist before and that copies the
    client's base URL, headers, timeout and auth; nothing else in the
    store changes, so the client's own session is as it was, and nothing
    is sent.  Two builders obtained from the same client hold different
    session objects, and a call chain on one of them (an operation, any
    filters, execute) leaves the session of the other and the session of
    the client untouched.  The asynchronous client clones in the same
    way. *)
Theorem table_operation_clones_session `{Transport} `{BaseRequestBuilder}
    (c : Client.t) (op1 op2 : TableOp) (w : World) (s : Session) :
  sessions w !! Client.session c = Some s →
  (∃ b1 w1 b2 w2,
      sync_table_op c op1 w = (Ok b1, w1)
    ∧ sync_table_op c op2 w1 = (Ok b2, w2)
    ∧ sessions w !! RB.session b1 = None
    ∧ sessions w1 = <[RB.session b1 := session_clone SyncClient s]> (sessions w)
    ∧ sessions w1 !! RB.session b2 = None
    ∧ sessions w2 = <[RB.session b2 := session_clone SyncClient s]> (sessions w1)
    ∧ sessions w2 !! Client.session c = Some s
    ∧ sent w2 = sent w
    ∧ RB.session b1 ≠ RB.session b2
    ∧ ∀ call fs w',
        sessions (run_chain b1 call fs w').2 !! RB.session b2 = sessions w' !! RB.session b2
      ∧ sessions (run_chain b2 call fs w').2 !! RB.session b1 = sessions w' !! RB.session b1
      ∧ sessions (run_chain b1 call fs w').2 !! Client.session c
        = sessions w' !! Client.session c
      ∧ sessions (run_chain b2 call fs w').2 !! Client.session c
        = sessions w' !! Client.session c)
  ∧ (∃ a1 w1 a2 w2,
      async_table_op c op1 w = (Ok a1, w1)
    ∧ async_table_op c op2 w1 = (Ok a2, w2)
    ∧ sessions w !! ARB.session a1 = None
    ∧ sessions w1 = <[ARB.session a1 := session_clone AsyncClient s]> (sessions w)
    ∧ sessions w1 !! ARB.session a2 = None
    ∧ sessions w2 = <[ARB.session a2 := session_clone AsyncClient s]> (sessions w1)
    ∧ sessions w2 !! Client.session c = Some s
    ∧ sent w2 = sent w
    ∧ ARB.session a1 ≠ ARB.session a2).
Proof.
  intros Hlive. split.
  - destruct (sync_table_op_run c op1 w s Hlive) as (b1 & Hrun1 & Hb1 & _).
    set (w1 := mkWorld (<[RB.session b1 := session_clone SyncClient s]> (sessions w)) (sent w))
      in *.
    assert (sessions w !! RB.session b1 = None) as Hfresh1
      by (rewrite Hb1; apply fresh_session_not_live).
    assert (RB.session b1 ≠ Client.session c) as Hne1
      by (rewrite Hb1; apply (fresh_session_differs _ _ _ Hlive)).
    assert (sessions w1 !! Client.session c = Some s) as Hlive1
      by (simpl; rewrite lookup_insert_ne; [exact Hlive | exact Hne1]).
    destruct (sync_table_op_run c op2 w1 s Hlive1) as (b2 & Hrun2 & Hb2 & _).
    assert (sessions w1 !! RB.session b2 = None) as Hfresh2
      by (rewrite Hb2; apply fresh_session_not_live).
    assert (RB.session b2 ≠ Client.session c) as Hne2
      by (rewrite Hb2; apply (fresh_session_differs _ _ _ Hlive1)).
    assert (RB.session b1 ≠ RB.session b2) as Hne12.
    { intros Heq. rewrite <- Heq in Hfresh2. simpl in Hfresh2.
      rewrite lookup_insert_eq in Hfresh2. discriminate. }
    exists b1, w1, b2,
      (mkWorld (<[RB.session b2 := session_clone SyncClient s]> (sessions w1)) (sent w1)).
    split; [exact Hrun1|]. split; [exact Hrun2|].
    repeat split; simpl; try assumption; try reflexivity.
    + rewrite lookup_insert_ne; [exact Hlive1 | exact Hne2].
    + apply run_chain_frame. congruence.
    + apply run_chain_frame. congruence.
    + apply run_chain_frame. congruence.
    + apply run_chain_frame. congruence.
  - destruct (async_table_op_run c op1 w s Hlive) as (a1 & Hrun1 & Ha1 & _).
    set (w1 := mkWorld (<[ARB.session a1 := session_clone AsyncClient s]> (sessions w)) (sent w))
      in *.
    assert (sessions w !! ARB.session a1 = None) as Hfresh1
      by (rewrite Ha1; apply fresh_session_not_live).
    assert (ARB.session a1 ≠ Client.session c) as Hne1
      by (rewrite Ha1; apply (fresh_session_differs _ _ _ Hlive)).
    assert (sessions w1 !! Client.session c = Some s) as Hlive1
      by (simpl; rewrite lookup_insert_ne; [exact Hlive | exact Hne1]).
    destruct (async_table_op_run c op2 w1 s Hlive1) as (a2 & Hrun2 & Ha2 & _).
    assert (sessions w1 !! ARB.session a2 = None) as Hfresh2
      by (rewrite Ha2; apply fresh_session_not_live).
    assert (ARB.session a2 ≠ Client.session c) as Hne2
      by (rewrite Ha2; apply (fresh_session_differs _ _ _ Hlive1)).
    exists a1, w1, a2,
      (mkWorld (<[ARB.session a2 := session_clone AsyncClient s]> (sessions w1)) (sent w1)).
    split; [exact Hrun1|]. split; [exact Hrun2|].
    repeat split; simpl; try assumption; try reflexivity.
    + rewrite lookup_insert_ne; [exact Hlive1 | exact Hne2].
    + intros Heq. rewrite <- Heq in Hfresh2. simpl in Hfresh2.
      rewrite lookup_insert_eq in Hfresh2. discriminate.
Qed.

(** C3 at [client0]: [from_("users")] then [from_model(Label)]. *)
Lemma table_operation_clones_session_witness :
  ∃ b1 w1 b2 w2,
      sync_table_op client0 (op_from_ "users") world0 = (Ok b1, w1)
    ∧ sync_table_op client0 (op_from_model Label) w1 = (Ok b2, w2)
    ∧ sessions w2 !! RB.session b1 = Some (session_clone SyncClient session0)
    ∧ sessions w2 !! RB.session b2 = Some (session_clone SyncClient session0)
    ∧ RB.session b1 ≠ RB.session b2.
Proof.
  destruct (@table_operation_clones_session
              (constant_transport (Ok response_rows)) (spec_builder is_object)
              client0 (op_from_ "users") (op_from_model Label) world0 session0 eq_refl)
    as [(b1 & w1 & b2 & w2 & H1 & H2 & _ & Hw1 & _ & Hw2 & _ & _ & Hne & _) _].
  exists b1, w1, b2, w2. repeat split; try assumption.
  - rewrite Hw2, Hw1. rewrite lookup_insert_ne by congruence. apply lookup_insert_eq.
  - rewrite Hw2. apply lookup_insert_eq.
Defined.



(** C10.  [from_model(M)] takes the table name from [M.__table_name__]
    when the class sets it and from the class name otherwise, and returns
    a typed builder whose path is [/{name}] over a session object that did
    not exist before and is a clone of the client's; so does the
    asynchronous client. *)
Theorem from_model_resolves_table_name
    (c : Client.t) (model : ModelClass) (w : World) (s : Session) :
  sessions w !! Client.session c = Some s →
  let name := match __table_name__ model with
              | Some table_name => table_name
              | None => __name__ model
              end in
  (∃ b w',
      SyncPostgrestClient.from_model c model w = (Ok b, w')
    ∧ RB.cls b = _SyncModelRequestBuilder
    ∧ RB.path b = "/" +:+ name
    ∧ sessions w !! RB.session b = None
    ∧ sessions w' = <[RB.session b := session_clone SyncClient s]> (sessions w)
    ∧ sent w' = sent w)
  ∧ (∃ b w',
      AsyncPostgrestClient.from_model c model w = (Ok b, w')
    ∧ ARB.cls b = _AsyncModelRequestBuilder
    ∧ ARB.path b = "/" +:+ name
    ∧ sessions w !! ARB.session b = None
    ∧ sessions w' = <[ARB.session b := session_clone AsyncClient s]> (sessions w)
    ∧ sent w' = sent w).
Proof.
  intros Hlive name.
  assert (name = table_name_of model) as Hname.
  { unfold name, table_name_of. destruct (__table_name__ model); reflexivity. }
  split.
  - destruct (sync_table_op_run c (op_from_model model) w s Hlive)
      as (b & Hrun & Hb & Hpath & Hcls).
    eexists b, _. split; [exact Hrun|]. simpl in *.
    split; [exact Hcls|]. split; [rewrite Hname; exact Hpath|].
    split; [rewrite Hb; apply fresh_session_not_live|]. split; reflexivity.
  - destruct (async_table_op_run c (op_from_model model) w s Hlive)
      as (b & Hrun & Hb & Hpath & Hcls).
    eexists b, _. split; [exact Hrun|]. simpl in *.
    split; [exact Hcls|]. split; [rewrite Hname; exact Hpath|].
    split; [rewrite Hb; apply fresh_session_not_live|]. split; reflexivity.
Qed.

(** C10 at [Label], which sets [__table_name__], and at [Account], which
    does not. *)
Lemma from_model_resolves_table_name_witness :
  (∃ b w', SyncPostgrestClient.from_model client0 Label world0 = (Ok b, w')
           ∧ RB.path b = "/labels")
  ∧ (∃ b w', SyncPostgrestClient.from_model client0 Account world0 = (Ok b, w')
             ∧ RB.path b = "/Account").
Proof.
  split.
  - destruct (from_model_resolves_table_name client0 Label world0 session0 eq_refl)
      as [(b & w' & Hrun & _ & Hpath & _) _].
    exists b, w'. split; [exact Hrun | exact Hpath].
  - destruct (from_model_resolves_table_name client0 Account world0 session0 eq_refl)
      as [(b & w' & Hrun & _ & Hpath & _) _].
    exists b, w'. split; [exact Hrun | exact Hpath].
Defined.

(** ** Operations of one table-level builder *)





(** ** Requests *)

(** C8.  [rpc(func, params)] hands the transport exactly one request: a
    POST to [/rpc/{func}] with [params] as its JSON body, built from the
    client's own session, which it leaves as it was; what the transport
    answers is what [rpc] returns.  The asynchronous client does the
    same. *)
Theorem rpc_posts_once `{Transport}
    (c : Client.t) (func : string) (args : Json) (w : World) :
  let s := sessions w !!! Client.session c in
  let req := mkRequest (kind s) "POST" (base_url s) ("/rpc/" +:+ func) (headers s)
                       (params s) (timeout s) (auth s) args in
  SyncPostgrestClient.rpc c func args w
    = (respond (sent w) req, mkWorld (sessions w) (sent w ++ [req]))
  ∧ AsyncPostgrestClient.rpc c func args w
    = (respond (sent w) req, mkWorld (sessions w) (sent w ++ [req]))
  ∧ length (sent (SyncPostgrestClient.rpc c func args w).2) = S (length (sent w))
  ∧ req_method req = "POST" ∧ req_path req = "/rpc/" +:+ func ∧ req_json req = args.
Proof.
  intros s req.
  assert (SyncPostgrestClient.rpc c func args w
          = (respond (sent w) req, mkWorld (sessions w) (sent w ++ [req]))) as Hsync.
  { unfold SyncPostgrestClient.rpc, Session_post, Session_request. reflexivity. }
  split; [exact Hsync|]. split.
  - unfold AsyncPostgrestClient.rpc, Session_post, Session_request. reflexivity.
  - rewrite Hsync. simpl. rewrite length_app. simpl. split; [lia|]. repeat split.
Qed.

(** C5.  [execute] may be called again: it changes no session object and
    keeps nothing from the call before, so the second call hands the
    transport a request equal to the first, built from the same builder
    attributes and the same session.  This holds for the untyped and for
    the typed [execute], whatever the first call returned or raised.  The
    builder's own attributes are assigned in [__init__] and nowhere else,
    which is why a builder is an immutable record here: both calls read
    the same [session], [path], [http_method] and [json]. *)
Theorem execute_twice_sends_equal_requests `{Transport} `{BaseRequestBuilder}
    (q : QB.t) (model : TypeArg) (w : World) :
  let req := request_of (sessions w !!! QB.session q) q in
  (let w1 := (SyncQueryRequestBuilder_execute q model w).2 in
   let w2 := (SyncQueryRequestBuilder_execute q model w1).2 in
   sessions w1 = sessions w ∧ sent w1 = (sent w ++ [req])%list
   ∧ sessions w2 = sessions w ∧ sent w2 = (sent w ++ [req; req])%list)
  ∧ (let w1 := (_SyncModelQueryRequestBuilder_execute q w).2 in
     let w2 := (_SyncModelQueryRequestBuilder_execute q w1).2 in
     sessions w1 = sessions w ∧ sent w1 = (sent w ++ [req])%list
     ∧ sessions w2 = sessions w ∧ sent w2 = (sent w ++ [req; req])%list).
Proof.
  intros req. split.
  - intros w1 w2. unfold w2, w1. rewrite !untyped_execute_world. simpl.
    repeat split. rewrite <- app_assoc. reflexivity.
  - intros w1 w2. unfold w2, w1. rewrite !typed_execute_world. simpl.
    repeat split. rewrite <- app_assoc. reflexivity.
Qed.

(** ** Operation methods called twice *)



(** ** Error responses *)

Section ErrorPath.
Context `{Transport} `{BaseRequestBuilder}.

(** What [execute] returns, by cases on the transport's answer. *)
Lemma untyped_execute_result (q : QB.t) (model : TypeArg) (w : World) :
  (SyncQueryRequestBuilder_execute q model w).1 =
    match respond (sent w) (request_of (sessions w !!! QB.session q) q) with
    | Raise e => Raise e
    | Ok r =>
        match from_http_request_response model r with
        | Ok response => Ok response
        | Raise e =>
            if isinstance_ValueError e
            then match decoded r with
                 | Some error => Raise (APIErrorExn (APIError_init error))
                 | None => Raise JSONDecodeError
                 end
            else Raise e
        end
    end.
Proof.
  unfold SyncQueryRequestBuilder_execute, Session_request, Response_json, request_of. run.
  destruct (respond _ _) as [r|e]; [|reflexivity].
  destruct (from_http_request_response model r) as [response|e]; [reflexivity|].
  destruct (isinstance_ValueError e); [|reflexivity].
  destruct (decoded r); reflexivity.
Qed.

(** With a body that is not JSON, [execute] raises no [APIError],
    whatever the response classifier does. *)
Lemma non_json_body_never_yields_APIError (q : QB.t) (model : TypeArg) (w : World)
    (r : Response) (err : APIError) :
  respond (sent w) (request_of (sessions w !!! QB.session q) q) = Ok r →
  decoded r = None →
  (∀ e, from_http_request_response model r = Raise (APIErrorExn e) → False) →
  (SyncQueryRequestBuilder_execute q model w).1 ≠ Raise (APIErrorExn err).
Proof.
  intros Hr Hd Hcls. rewrite untyped_execute_result, Hr, Hd.
  destruct (from_http_request_response model r) as [response|e] eqn:Hc; [discriminate|].
  destruct (isinstance_ValueError e) eqn:Hv; [discriminate|].
  intros Heq. injection Heq as ->. exact (Hcls err eq_refl).
Qed.

End ErrorPath.

(** C2, as the code has it.  When the transport answers with a response
    whose success decoding fails with a [ValueError] and whose body is
    JSON, [execute], untyped or typed, raises an [APIError] built from the
    message, details, hint and code members of the decoded body, a missing
    member being null. *)
Theorem execute_raises_APIError_from_json_body `{Transport} `{BaseRequestBuilder}
    (q : QB.t) (model : TypeArg) (w : World) (r : Response) (error : Json) (e e' : Exn) :
  respond (sent w) (request_of (sessions w !!! QB.session q) q) = Ok r →
  decoded r = Some error →
  from_http_request_response model r = Raise e → isinstance_ValueError e = true →
  from_http_request_response _T r = Raise e' → isinstance_ValueError e' = true →
  (SyncQueryRequestBuilder_execute q model w).1
    = Raise (APIErrorExn (mkAPIError (dict_get "message" error) (dict_get "details" error)
                                     (dict_get "hint" error) (dict_get "code" error)))
  ∧ (_SyncModelQueryRequestBuilder_execute q w).1
    = Raise (APIErrorExn (mkAPIError (dict_get "message" error) (dict_get "details" error)
                                     (dict_get "hint" error) (dict_get "code" error))).
Proof.
  intros Hr Hd He Hv He' Hv'. split.
  - rewrite untyped_execute_result, Hr, He, Hv, Hd. reflexivity.
  - change (_SyncModelQueryRequestBuilder_execute q w)
      with (SyncQueryRequestBuilder_execute q _T w).
    rewrite untyped_execute_result, Hr, He', Hv', Hd. reflexivity.
Qed.

(** Modelled from the spec, the classifier rejects every response of
    status 400 or more with a [ValueError]. *)
Lemma spec_classifier_rejects_error_status (typevar_rows : Json → bool)
    (model : TypeArg) (r : Response) (body : Json) :
  decoded r = Some body → (400 ≤ status_code r)%Z →
  spec_from_http_request_response typevar_rows model r = Raise (ValueError "error response").
Proof.
  intros Hd Hs. unfold spec_from_http_request_response. rewrite Hd.
  destruct (400 <=? status_code r)%Z eqn:Hle; [reflexivity|].
  apply Z.leb_gt in Hle. lia.
Qed.

(** A 404 response with body [{"message":"not found"}] yields an
    [APIError] whose message is "not found". *)
Lemma execute_raises_APIError_from_json_body_witness :
  (400 ≤ status_code response_404)%Z
  ∧ (@SyncQueryRequestBuilder_execute (constant_transport (Ok response_404))
       (spec_builder is_object) query0 Dict_str_Any world0).1
    = Raise (APIErrorExn (mkAPIError (Some (JString "not found")) None None None))
  ∧ (@_SyncModelQueryRequestBuilder_execute (constant_transport (Ok response_404))
       (spec_builder is_object) query0 world0).1
    = Raise (APIErrorExn (mkAPIError (Some (JString "not found")) None None None)).
Proof.
  split; [vm_compute; discriminate|].
  exact (@execute_raises_APIError_from_json_body
           (constant_transport (Ok response_404)) (spec_builder is_object)
           query0 Dict_str_Any world0 response_404
           (JObject [("message", JString "not found")])
           (ValueError "error response") (ValueError "error response")
           eq_refl eq_refl eq_refl eq_refl eq_refl eq_refl).
Defined.

(** C2, as stated, fails.  A 502 response whose body is an HTML page, not
    JSON: [execute] does not degrade to an [APIError] carrying the status
    and the text; [r.json()] in the handler raises [JSONDecodeError], and
    that is what the caller gets, from the untyped and from the typed
    [execute]. *)
Lemma non_json_error_body_raises_decode_error :
  (400 ≤ status_code response_502)%Z
  ∧ decoded response_502 = None
  ∧ (@SyncQueryRequestBuilder_execute (constant_transport (Ok response_502))
       (spec_builder is_object) query0 Dict_str_Any world0).1 = Raise JSONDecodeError
  ∧ (@_SyncModelQueryRequestBuilder_execute (constant_transport (Ok response_502))
       (spec_builder is_object) typed_query0 world0).1 = Raise JSONDecodeError
  ∧ ¬ ∃ err, (@SyncQueryRequestBuilder_execute (constant_transport (Ok response_502))
                (spec_builder is_object) query0 Dict_str_Any world0).1
             = Raise (APIErrorExn err).
Proof.
  split; [vm_compute; discriminate|].
  split; [reflexivity|].
  split; [vm_compute; reflexivity|].
  split; [vm_compute; reflexivity|].
  intros [err Herr]. vm_compute in Herr. discriminate.
Qed.

(** ** The typed and the untyped [execute] *)

(** The typed [execute] is the untyped one called with [model=_T], the
    type variable: it sends the same request as the untyped one called
    with any model, and returns what [model=_T] returns. *)
Lemma typed_execute_is_untyped_at_typevar `{Transport} `{BaseRequestBuilder}
    (q : QB.t) (model : TypeArg) (w : World) :
  _SyncModelQueryRequestBuilder_execute q w = SyncQueryRequestBuilder_execute q _T w
  ∧ (_SyncModelQueryRequestBuilder_execute q w).2
    = (SyncQueryRequestBuilder_execute q model w).2.
Proof.
  split; [reflexivity|].
  rewrite typed_execute_world, untyped_execute_world. reflexivity.
Qed.


(** * Further properties of the code *)

(** ** What [execute] lets through *)

(** X2.  The request is made outside the [try] block: when the transport
    call fails, [execute], untyped or typed, raises that very exception,
    also when it is a [ValueError]; it builds no [APIError] and does not
    consult the response classifier.  The request has been handed to the
    transport all the same. *)
Theorem execute_propagates_transport_failure `{Transport} `{BaseRequestBuilder}
    (q : QB.t) (model : TypeArg) (w : World) (e : Exn) :
  respond (sent w) (request_of (sessions w !!! QB.session q) q) = Raise e →
  SyncQueryRequestBuilder_execute q model w
    = (Raise e, mkWorld (sessions w)
                        (sent w ++ [request_of (sessions w !!! QB.session q) q]))
  ∧ _SyncModelQueryRequestBuilder_execute q w
    = (Raise e, mkWorld (sessions w)
                        (sent w ++ [request_of (sessions w !!! QB.session q) q])).
Proof.
  intros Hr.
  assert (∀ m, SyncQueryRequestBuilder_execute q m w
               = (Raise e, mkWorld (sessions w)
                     (sent w ++ [request_of (sessions w !!! QB.session q) q]))) as Hany.
  { intros m. apply injective_projections.
    - rewrite untyped_execute_result, Hr. reflexivity.
    - apply untyped_execute_world. }
  split; [apply Hany | apply (Hany _T)].
Qed.

(** X2 with a transport that times out, and with one that fails with a
    [ValueError]. *)
Lemma execute_propagates_transport_failure_witness :
  (@SyncQueryRequestBuilder_execute (constant_transport (Raise (TransportError "timeout")))
     (spec_builder is_object) query0 Dict_str_Any world0).1
    = Raise (TransportError "timeout")
  ∧ (@_SyncModelQueryRequestBuilder_execute (constant_transport (Raise (ValueError "bad url")))
       (spec_builder is_object) typed_query0 world0).1
    = Raise (ValueError "bad url").
Proof.
  split.
  - exact (f_equal fst (proj1 (@execute_propagates_transport_failure
             (constant_transport (Raise (TransportError "timeout"))) (spec_builder is_object)
             query0 Dict_str_Any world0 (TransportError "timeout") eq_refl))).
  - exact (f_equal fst (proj2 (@execute_propagates_transport_failure
             (constant_transport (Raise (ValueError "bad url"))) (spec_builder is_object)
             typed_query0 Dict_str_Any world0 (ValueError "bad url") eq_refl))).
Defined.

(** X3.  When success decoding fails with a [ValueError] and the body is
    not JSON, the handler's own [r.json()] raises: [execute] ends in
    [JSONDecodeError] for every response classifier, the first exception is
    replaced, and no [APIError] is built. *)
Theorem execute_non_json_body_raises_decode_error `{Transport} `{BaseRequestBuilder}
    (q : QB.t) (model : TypeArg) (w : World) (r : Response) (e : Exn) :
  respond (sent w) (request_of (sessions w !!! QB.session q) q) = Ok r →
  from_http_request_response model r = Raise e →
  isinstance_ValueError e = true →
  decoded r = None →
  (SyncQueryRequestBuilder_execute q model w).1 = Raise JSONDecodeError.
Proof.
  intros Hr He Hv Hd. rewrite untyped_execute_result, Hr, He, Hv, Hd. reflexivity.
Qed.

(** X3 at the 502 response with an HTML body, for a schema that the
    response never reaches. *)
Lemma execute_non_json_body_raises_decode_error_witness :
  (@SyncQueryRequestBuilder_execute (constant_transport (Ok response_502))
     (spec_builder is_object) query0 (Model Account) world0).1 = Raise JSONDecodeError.
Proof.
  exact (@execute_non_json_body_raises_decode_error
           (constant_transport (Ok response_502)) (spec_builder is_object)
           query0 (Model Account) world0 response_502 JSONDecodeError
           eq_refl eq_refl eq_refl eq_refl).
Defined.

(** ** Operation methods *)





(** ** [from_model] *)



(** ** Several table operations *)

(** X8.  Any number of table operations on one client, in a row: each
    returns a builder, the builders' sessions are pairwise distinct
    objects that did not exist before, each a clone of the client's
    session, and each builder has the path of its table.  Every session
    that existed before, the client's own among them, is as it was; the
    store has grown by exactly one session per operation, none of which
    the code ever removes, and nothing has been sent. *)
Theorem table_operations_allocate_distinct_sessions
    (c : Client.t) (s : Session) (ops : list TableOp) (w : World) :
  sessions w !! Client.session c = Some s →
  ∃ bs w',
    sync_table_ops c ops w = (Ok bs, w')
    ∧ Forall2 (λ b op, RB.path b = "/" +:+ op_table_name op) bs ops
    ∧ NoDup (RB.session <$> bs)
    ∧ Forall (λ b, sessions w !! RB.session b = None
                   ∧ sessions w' !! RB.session b = Some (session_clone SyncClient s)) bs
    ∧ (∀ r, is_Some (sessions w !! r) → sessions w' !! r = sessions w !! r)
    ∧ size (sessions w') = (size (sessions w) + length ops)%nat
    ∧ sent w' = sent w.
Proof.
  revert w. induction ops as [|op rest IH]; intros w Hlive.
  - exists [], w. simpl. split; [reflexivity|]. split; [constructor|].
    split; [constructor|]. split; [constructor|]. split; [reflexivity|].
    split; [lia | reflexivity].
  - destruct (sync_table_op_run c op w s Hlive) as (b & Hrun & Hb & Hpath & _).
    set (w1 := mkWorld (<[RB.session b := session_clone SyncClient s]> (sessions w)) (sent w))
      in *.
    assert (sessions w !! RB.session b = None) as Hfresh
      by (rewrite Hb; apply fresh_session_not_live).
    assert (sessions w1 !! Client.session c = Some s) as Hlive1.
    { simpl. rewrite lookup_insert_ne; [exact Hlive|]. congruence. }
    destruct (IH w1 Hlive1) as (bs & w' & Hrest & Hpaths & Hnodup & Hall & Hkeep & Hsize & Hsent).
    exists (b :: bs), w'. simpl. unfold mbind, M_bind. rewrite Hrun, Hrest.
    assert (sessions w1 !! RB.session b = Some (session_clone SyncClient s)) as Hb1
      by (simpl; apply lookup_insert_eq).
    split; [reflexivity|]. split; [constructor; assumption|]. split.
    { constructor; [|exact Hnodup]. intros Hin.
      apply list_elem_of_fmap in Hin as (b' & Heq & Hb').
      rewrite Forall_forall in Hall. destruct (Hall b' Hb') as [Hnone _].
      rewrite <- Heq in Hnone. congruence. }
    split.
    { constructor.
      - split; [exact Hfresh|]. rewrite Hkeep by eauto. exact Hb1.
      - eapply Forall_impl; [exact Hall|]. intros b' [Hnone Hsome]. split; [|exact Hsome].
        simpl in Hnone. apply lookup_insert_None in Hnone as [Hnone _]. exact Hnone. }
    split.
    { intros r Hr. assert (r ≠ RB.session b) as Hne.
      { intros ->. rewrite Hfresh in Hr. destruct Hr; discriminate. }
      rewrite Hkeep.
      - simpl. apply lookup_insert_ne. congruence.
      - simpl. rewrite lookup_insert_ne by congruence. exact Hr. }
    split; [|exact Hsent].
    rewrite Hsize. simpl. rewrite map_size_insert_None by exact Hfresh. lia.
Qed.

(** X8 at [client0]: three operations, two of them on the same table. *)
Lemma table_operations_allocate_distinct_sessions_witness :
  ∃ bs w',
    sync_table_ops client0 [op_from_ "a"; op_table "a"; op_from_model Label] world0
      = (Ok bs, w')
    ∧ NoDup (RB.session <$> bs)
    ∧ size (sessions w') = 4%nat.
Proof.
  destruct (table_operations_allocate_distinct_sessions client0 session0
              [op_from_ "a"; op_table "a"; op_from_model Label] world0 eq_refl)
    as (bs & w' & Hrun & _ & Hnodup & _ & _ & Hsize & _).
  exists bs, w'. split; [exact Hrun|]. split; [exact Hnodup|].
  rewrite Hsize. reflexivity.
Defined.

(** ** Closing a client *)

(** The [with] block over a synchronous client, run. *)
Lemma with_sync_client_run `{SessionClose} {B : Type}
    (c : Client.t) (body : Client.t → M B) (w : World) :
  with_sync_client c body w
  = (match (body c w).1 with Ok b => Ok (Some b) | Raise e => Raise e end,
     mkWorld (<[Client.session c :=
                 session_aclose (sessions (body c w).2 !!! Client.session c)]>
                (sessions (body c w).2)) (sent (body c w).2)).
Proof.
  unfold with_sync_client, py_with, SyncContext.__enter__, SyncContext.__exit__,
    SyncContext.aclose, bool_of_None. run.
  destruct (body c w) as [[b|e] w2]; reflexivity.
Qed.

(** X9.  A [with] block over a client: the block's value or exception
    comes out unchanged ([__exit__] returns [None], so nothing the block
    raises is dropped), and in both cases the client's session is closed
    exactly once after the block.  Closing touches the client's own
    session only: every other session, those of the builders the block
    created among them, is left as the block left it, and nothing is sent
    by entering or leaving.  The same holds for [async with]. *)
Theorem with_client_closes_own_session_only `{SessionClose} {B : Type}
    (c : Client.t) (body : Client.t → M B) (w : World) :
  let after w2 := mkWorld (<[Client.session c :=
                              session_aclose (sessions w2 !!! Client.session c)]>
                             (sessions w2)) (sent w2) in
  with_sync_client c body w
    = (match (body c w).1 with Ok b => Ok (Some b) | Raise e => Raise e end,
       after (body c w).2)
  ∧ with_async_client c body w
    = (match (body c w).1 with Ok b => Ok (Some b) | Raise e => Raise e end,
       after (body c w).2)
  ∧ (∀ r, r ≠ Client.session c →
          sessions (with_sync_client c body w).2 !! r = sessions (body c w).2 !! r).
Proof.
  intros after. pose proof (with_sync_client_run c body w) as Hsync.
  split; [exact Hsync|]. split.
  - unfold with_async_client, py_with, AsyncContext.__aenter__, AsyncContext.__aexit__,
      AsyncContext.aclose, bool_of_None. run.
    destruct (body c w) as [[b|e] w2]; reflexivity.
  - intros r Hr. rewrite Hsync. simpl. apply lookup_insert_ne. congruence.
Qed.

(** X10.  A builder obtained inside a [with] block outlives the block
    with its session open: after the block the client's session is closed
    and the builder's session is still the clone it was created as,
    whatever closing does to a session. *)
Theorem builder_session_survives_client_close `{SessionClose}
    (c : Client.t) (s : Session) (op : TableOp) (w : World) :
  sessions w !! Client.session c = Some s →
  ∃ b w',
    with_sync_client c (λ client, sync_table_op client op) w = (Ok (Some b), w')
    ∧ sessions w' !! Client.session c = Some (session_aclose s)
    ∧ sessions w' !! RB.session b = Some (session_clone SyncClient s)
    ∧ RB.session b ≠ Client.session c.
Proof.
  intros Hlive.
  destruct (sync_table_op_run c op w s Hlive) as (b & Hrun & Hb & _).
  assert (RB.session b ≠ Client.session c) as Hne
    by (rewrite Hb; apply (fresh_session_differs _ _ _ Hlive)).
  pose proof (with_sync_client_run c (λ client, sync_table_op client op) w) as Hwith.
  cbv beta in Hwith. rewrite Hrun in Hwith. simpl in Hwith.
  eexists b, _. split; [exact Hwith|]. simpl.
  rewrite lookup_total_insert_ne by exact Hne.
  rewrite (lookup_total_correct _ _ _ Hlive).
  split; [apply lookup_insert_eq|]. split; [|exact Hne].
  rewrite lookup_insert_ne by congruence. apply lookup_insert_eq.
Qed.

(** X10 at [client0], with a closing that drops the session's auth. *)
Lemma builder_session_survives_client_close_witness :
  ∃ b w',
    @with_sync_client closing_drops_auth _ client0
      (λ client, sync_table_op client (op_from_ "users")) world0 = (Ok (Some b), w')
    ∧ (auth <$> sessions w' !! Client.session client0) = Some None
    ∧ (auth <$> sessions w' !! RB.session b) = Some (Some ("user", "secret")).
Proof.
  destruct (@builder_session_survives_client_close closing_drops_auth
              client0 session0 (op_from_ "users") world0 eq_refl)
    as (b & w' & Hrun & Hc & Hb & _).
  exists b, w'. split; [exact Hrun|]. rewrite Hc, Hb. split; reflexivity.
Defined.
